(** * Hardware buffer manager (CmHardwareBufferManager.h)

    Shallow embedding of [HardwareBufferManagerBase] and of its delegate
    wrapper [HardwareBufferManager].  Raw C++ pointers are object identities
    ([nat]); the heap of live objects is a [gmap]; the [set<T*>] registries
    are [gset]s.  Only the header is available: the bodies of the base class
    methods (declared in the header, defined in the missing
    CmHardwareBufferManager.cpp) and the backend's buffer constructors are
    modelled from the specification and say so in their doc comments.  The
    inline forwarding methods of [HardwareBufferManager] are translated from
    the header. *)

From stdpp Require Import base gmap sets list.

(** ** Data model *)

(** [HardwareBuffer::Usage] (only threaded through, never inspected here). *)
Inductive Usage :=
  | HBU_STATIC | HBU_DYNAMIC | HBU_WRITE_ONLY
  | HBU_STATIC_WRITE_ONLY | HBU_DYNAMIC_WRITE_ONLY.

(** [HardwareIndexBuffer::IndexType]. *)
Inductive IndexType := IT_16BIT | IT_32BIT.

(** Live objects of the heap that the manager deals with. *)
Inductive Obj :=
  | OVertexBuffer (sizeInBytes : nat) (usage : Usage) (streamOut : bool) (refs : nat)
  | OIndexBuffer (itype : IndexType) (numIndexes : nat) (usage : Usage) (refs : nat)
  | OVertexDeclaration
  | OVertexBufferBinding.

Definition is_vb (o : Obj) : bool :=
  match o with OVertexBuffer _ _ _ _ => true | _ => false end.
Definition is_ib (o : Obj) : bool :=
  match o with OIndexBuffer _ _ _ _ => true | _ => false end.
Definition is_binding (o : Obj) : bool :=
  match o with OVertexBufferBinding => true | _ => false end.

(** The data members of [HardwareBufferManagerBase] (lines 65-72): three
    [set<T*>] registries.  [ConstantBufferList] (line 67) is only a typedef:
    no member of that type is declared. *)
Record Registries := mkRegs {
  mVertexBuffers : gset nat;
  mIndexBuffers : gset nat;
  mVertexBufferBindings : gset nat
}.

Definition empty_regs : Registries := mkRegs ∅ ∅ ∅.

(** What a manager instance sees: the heap of live objects and its own
    data members. *)
Record Mgr := mkMgr { heap : gmap nat Obj; regs : Registries }.

(** Ids of the live objects of a given kind. *)
Definition live_of (p : Obj -> bool) (h : gmap nat Obj) : gset nat :=
  dom (filter (fun kv => p kv.2 = true) h).

(** Errors: allocation failure of a backend, and invariant violation
    (destroying or notifying about an object the manager does not own). *)
Inductive Err := AllocationError | InvariantViolation.

(** A small state and error monad: an operation returns its result (or its
    error) and the state it leaves. *)
Definition M (A : Type) := Mgr -> (Err + A) * Mgr.
Definition ret {A} (a : A) : M A := fun s => (inr a, s).
Definition fail {A} (e : Err) : M A := fun s => (inl e, s).
Definition bind {A B} (m : M A) (k : A -> M B) : M B :=
  fun s => match m s with
           | (inl e, s') => (inl e, s')
           | (inr a, s') => k a s'
           end.
Definition get : M Mgr := fun s => (inr s, s).
Notation "'let*' x := m 'in' k" := (bind m (fun x => k))
  (at level 200, x name, m at level 100, k at level 200).

(** [new]: an address distinct from every live one. *)
Definition alloc (o : Obj) : M nat :=
  fun s => let i := fresh (dom (heap s)) in
           (inr i, mkMgr (<[i := o]> (heap s)) (regs s)).

(** [delete]: the object's memory is released. *)
Definition free (i : nat) : M unit :=
  fun s => (inr tt, mkMgr (delete i (heap s)) (regs s)).

(** In-place update of a live object (reference counts). *)
Definition set_obj (i : nat) (o : Obj) : M unit :=
  fun s => (inr tt, mkMgr (<[i := o]> (heap s)) (regs s)).

Definition set_vbs (f : gset nat -> gset nat) : M unit :=
  fun s => let r := regs s in
  (inr tt, mkMgr (heap s) (mkRegs (f (mVertexBuffers r)) (mIndexBuffers r)
                                  (mVertexBufferBindings r))).
Definition set_ibs (f : gset nat -> gset nat) : M unit :=
  fun s => let r := regs s in
  (inr tt, mkMgr (heap s) (mkRegs (mVertexBuffers r) (f (mIndexBuffers r))
                                  (mVertexBufferBindings r))).
Definition set_bindings (f : gset nat -> gset nat) : M unit :=
  fun s => let r := regs s in
  (inr tt, mkMgr (heap s) (mkRegs (mVertexBuffers r) (mIndexBuffers r)
                                  (f (mVertexBufferBindings r)))).

(** ** HardwareBufferManagerBase *)

Section Manager.

(** The backend (the concrete subclass implementing the pure virtual
    [createVertexBuffer] / [createIndexBuffer]) decides which requests it can
    satisfy: usage, size, stream-out support, GPU memory. *)
Variable backend_vb_ok : nat -> nat -> Usage -> bool -> bool.
Variable backend_ib_ok : IndexType -> nat -> Usage -> bool.

(** Modelled from the spec: the backend's [createVertexBuffer] (pure virtual
    at line 111; implementations are not in this header).  With
    [vertexSize > 0], [numVerts > 0] and a request the backend can satisfy, a
    new buffer of [vertexSize * numVerts] bytes is allocated, registered in
    [mVertexBuffers] and returned as a handle holding one reference;
    otherwise an allocation error is reported and nothing is registered. *)
Definition createVertexBuffer (vertexSize numVerts : nat) (usage : Usage)
    (streamOut : bool) : M nat :=
  if (0 <? vertexSize) && (0 <? numVerts)
     && backend_vb_ok vertexSize numVerts usage streamOut
  then let* b := alloc (OVertexBuffer (vertexSize * numVerts) usage streamOut 1) in
       let* _ := set_vbs (fun r => {[b]} ∪ r) in
       ret b
  else fail AllocationError.

(** Modelled from the spec: the backend's [createIndexBuffer] (pure virtual
    at line 122), with the same sharing and failure contract. *)
Definition createIndexBuffer (itype : IndexType) (numIndexes : nat)
    (usage : Usage) : M nat :=
  if backend_ib_ok itype numIndexes usage
  then let* b := alloc (OIndexBuffer itype numIndexes usage 1) in
       let* _ := set_ibs (fun r => {[b]} ∪ r) in
       ret b
  else fail AllocationError.

(** Modelled from the spec: [createVertexDeclarationImpl] (line 78) builds an
    empty declaration, returned as a shared handle and not tracked. *)
Definition createVertexDeclarationImpl : M nat := alloc OVertexDeclaration.

(** Modelled from the spec: [createVertexDeclaration] (line 127) always
    succeeds through [createVertexDeclarationImpl]. *)
Definition createVertexDeclaration : M nat := createVertexDeclarationImpl.

(** Modelled from the spec: [createVertexBufferBindingImpl] (line 81). *)
Definition createVertexBufferBindingImpl : M nat := alloc OVertexBufferBinding.

(** Modelled from the spec: [destroyVertexBufferBindingImpl] (line 83). *)
Definition destroyVertexBufferBindingImpl (binding : nat) : M unit := free binding.

(** Modelled from the spec: [createVertexBufferBinding] (line 130) creates a
    binding and registers it. *)
Definition createVertexBufferBinding : M nat :=
  let* b := createVertexBufferBindingImpl in
  let* _ := set_bindings (fun r => {[b]} ∪ r) in
  ret b.

(** Modelled from the spec: [destroyVertexBufferBinding] (line 132) removes
    the binding from the registry and releases it; a binding this manager
    did not create is a precondition violation. *)
Definition destroyVertexBufferBinding (binding : nat) : M unit :=
  let* s := get in
  if decide (binding ∈ mVertexBufferBindings (regs s))
  then let* _ := set_bindings (fun r => r ∖ {[binding]}) in
       destroyVertexBufferBindingImpl binding
  else fail InvariantViolation.

(** Modelled from the spec: [destroyAllBindings] (line 75) destroys every
    registered binding, then clears the registry. *)
Fixpoint destroy_each (bs : list nat) : M unit :=
  match bs with
  | [] => ret tt
  | b :: bs' => let* _ := destroyVertexBufferBindingImpl b in destroy_each bs'
  end.

Definition destroyAllBindings : M unit :=
  let* s := get in
  let* _ := destroy_each (elements (mVertexBufferBindings (regs s))) in
  set_bindings (fun _ => ∅).

(** Modelled from the spec: [_notifyVertexBufferDestroyed] (line 135) removes
    the buffer from the registry and does nothing else; a buffer that is not
    registered (double notification) is a precondition violation. *)
Definition _notifyVertexBufferDestroyed (buf : nat) : M unit :=
  let* s := get in
  if decide (buf ∈ mVertexBuffers (regs s))
  then set_vbs (fun r => r ∖ {[buf]})
  else fail InvariantViolation.

(** Modelled from the spec: [_notifyIndexBufferDestroyed] (line 137). *)
Definition _notifyIndexBufferDestroyed (buf : nat) : M unit :=
  let* s := get in
  if decide (buf ∈ mIndexBuffers (regs s))
  then set_ibs (fun r => r ∖ {[buf]})
  else fail InvariantViolation.

(** Modelled from the spec: the reference-counted handles of the buffers.
    Copying a handle adds a reference; releasing the last reference destroys
    the buffer, whose destructor notifies the manager once and then frees the
    buffer's memory. *)
Definition acquireVertexBuffer (b : nat) : M unit :=
  let* s := get in
  match heap s !! b with
  | Some (OVertexBuffer sz u so n) => set_obj b (OVertexBuffer sz u so (S n))
  | _ => fail InvariantViolation
  end.

Definition releaseVertexBuffer (b : nat) : M unit :=
  let* s := get in
  match heap s !! b with
  | Some (OVertexBuffer sz u so n) =>
      if n <=? 1
      then let* _ := _notifyVertexBufferDestroyed b in free b
      else set_obj b (OVertexBuffer sz u so (n - 1))
  | _ => fail InvariantViolation
  end.

Definition acquireIndexBuffer (b : nat) : M unit :=
  let* s := get in
  match heap s !! b with
  | Some (OIndexBuffer it k u n) => set_obj b (OIndexBuffer it k u (S n))
  | _ => fail InvariantViolation
  end.

Definition releaseIndexBuffer (b : nat) : M unit :=
  let* s := get in
  match heap s !! b with
  | Some (OIndexBuffer it k u n) =>
      if n <=? 1
      then let* _ := _notifyIndexBufferDestroyed b in free b
      else set_obj b (OIndexBuffer it k u (n - 1))
  | _ => fail InvariantViolation
  end.

End Manager.

(** ** The public interface *)

Inductive Ret := RUnit | RHandle (h : nat).

(** The operations the wrapper forwards (lines 150-185). *)
Inductive PublicOp :=
  | PCreateVertexBuffer (vertexSize numVerts : nat) (usage : Usage) (streamOut : bool)
  | PCreateIndexBuffer (itype : IndexType) (numIndexes : nat) (usage : Usage)
  | PCreateVertexDeclaration
  | PCreateVertexBufferBinding
  | PDestroyVertexBufferBinding (binding : nat)
  | PNotifyVertexBufferDestroyed (buf : nat)
  | PNotifyIndexBufferDestroyed (buf : nat).

Definition map_res {S A B} (f : A -> B) (m : S -> (Err + A) * S)
    : S -> (Err + B) * S :=
  fun s => let '(r, s') := m s in
           (match r with inl e => inl e | inr a => inr (f a) end, s').

(** A call on a base manager instance. *)
Definition base_call vbok ibok (op : PublicOp) : M Ret :=
  match op with
  | PCreateVertexBuffer vs nv u so => map_res RHandle (createVertexBuffer vbok vs nv u so)
  | PCreateIndexBuffer it n u => map_res RHandle (createIndexBuffer ibok it n u)
  | PCreateVertexDeclaration => map_res RHandle createVertexDeclaration
  | PCreateVertexBufferBinding => map_res RHandle createVertexBufferBinding
  | PDestroyVertexBufferBinding b => map_res (fun _ => RUnit) (destroyVertexBufferBinding b)
  | PNotifyVertexBufferDestroyed b => map_res (fun _ => RUnit) (_notifyVertexBufferDestroyed b)
  | PNotifyIndexBufferDestroyed b => map_res (fun _ => RUnit) (_notifyIndexBufferDestroyed b)
  end.

(** ** HardwareBufferManager, the delegate wrapper *)

(** The wrapper is itself a [HardwareBufferManagerBase] (it inherits the
    registries, [wregs]) and holds [mImpl], the backend instance, whose data
    members are [mImpl] here. *)
Record Wrapper := mkWrapper {
  wheap : gmap nat Obj;
  wregs : Registries;
  mImpl : Registries
}.

Definition WM (A : Type) := Wrapper -> (Err + A) * Wrapper.

(** [mImpl->f(args)]: run [f] on the backend instance. *)
Definition forward {A} (m : M A) : WM A :=
  fun w => let '(r, s') := m (mkMgr (wheap w) (mImpl w)) in
           (r, mkWrapper (heap s') (wregs w) (regs s')).

Definition HardwareBufferManager_createVertexBuffer vbok (vertexSize numVerts : nat)
    (usage : Usage) (streamOut : bool) : WM nat :=
  forward (createVertexBuffer vbok vertexSize numVerts usage streamOut).
Definition HardwareBufferManager_createIndexBuffer ibok (itype : IndexType)
    (numIndexes : nat) (usage : Usage) : WM nat :=
  forward (createIndexBuffer ibok itype numIndexes usage).
Definition HardwareBufferManager_createVertexDeclaration : WM nat :=
  forward createVertexDeclaration.
Definition HardwareBufferManager_createVertexBufferBinding : WM nat :=
  forward createVertexBufferBinding.
Definition HardwareBufferManager_destroyVertexBufferBinding (binding : nat) : WM unit :=
  forward (destroyVertexBufferBinding binding).
Definition HardwareBufferManager__notifyVertexBufferDestroyed (buf : nat) : WM unit :=
  forward (_notifyVertexBufferDestroyed buf).
Definition HardwareBufferManager__notifyIndexBufferDestroyed (buf : nat) : WM unit :=
  forward (_notifyIndexBufferDestroyed buf).

(** A call on the wrapper (through its static type [HardwareBufferManager]). *)
Definition wrapper_call vbok ibok (op : PublicOp) : WM Ret :=
  match op with
  | PCreateVertexBuffer vs nv u so =>
      map_res RHandle (HardwareBufferManager_createVertexBuffer vbok vs nv u so)
  | PCreateIndexBuffer it n u =>
      map_res RHandle (HardwareBufferManager_createIndexBuffer ibok it n u)
  | PCreateVertexDeclaration =>
      map_res RHandle HardwareBufferManager_createVertexDeclaration
  | PCreateVertexBufferBinding =>
      map_res RHandle HardwareBufferManager_createVertexBufferBinding
  | PDestroyVertexBufferBinding b =>
      map_res (fun _ => RUnit) (HardwareBufferManager_destroyVertexBufferBinding b)
  | PNotifyVertexBufferDestroyed b =>
      map_res (fun _ => RUnit) (HardwareBufferManager__notifyVertexBufferDestroyed b)
  | PNotifyIndexBufferDestroyed b =>
      map_res (fun _ => RUnit) (HardwareBufferManager__notifyIndexBufferDestroyed b)
  end.

(** Modelled from the spec: the constructor
    [HardwareBufferManager(HardwareBufferManagerBase* imp)] (line 146, body
    not in this header) attaches the backend; the inherited registries start
    as empty sets. *)
Definition HardwareBufferManager_new (h : gmap nat Obj) (imp : Registries) : Wrapper :=
  mkWrapper h empty_regs imp.

(** A sequence of calls on the wrapper; an error does not stop the
    sequence. *)
Fixpoint wrapper_run vbok ibok (ops : list PublicOp) (w : Wrapper) : Wrapper :=
  match ops with
  | [] => w
  | op :: ops' => wrapper_run vbok ibok ops' (snd (wrapper_call vbok ibok op w))
  end.

(** ** Client protocol and registry invariant *)

(** What client code does: create resources, copy and release buffer
    handles, destroy bindings; [destroyAllBindings] runs at teardown.
    Notifications are not client operations: only a dying buffer sends one,
    from [releaseVertexBuffer] / [releaseIndexBuffer]. *)
Inductive ClientOp :=
  | CCreateVertexBuffer (vertexSize numVerts : nat) (usage : Usage) (streamOut : bool)
  | CCreateIndexBuffer (itype : IndexType) (numIndexes : nat) (usage : Usage)
  | CCreateVertexDeclaration
  | CCreateVertexBufferBinding
  | CDestroyVertexBufferBinding (binding : nat)
  | CAcquireVertexBuffer (b : nat)
  | CReleaseVertexBuffer (b : nat)
  | CAcquireIndexBuffer (b : nat)
  | CReleaseIndexBuffer (b : nat)
  | CDestroyAllBindings.

Definition client_call vbok ibok (op : ClientOp) : M unit :=
  match op with
  | CCreateVertexBuffer vs nv u so => map_res (fun _ => tt) (createVertexBuffer vbok vs nv u so)
  | CCreateIndexBuffer it n u => map_res (fun _ => tt) (createIndexBuffer ibok it n u)
  | CCreateVertexDeclaration => map_res (fun _ => tt) createVertexDeclaration
  | CCreateVertexBufferBinding => map_res (fun _ => tt) createVertexBufferBinding
  | CDestroyVertexBufferBinding b => destroyVertexBufferBinding b
  | CAcquireVertexBuffer b => acquireVertexBuffer b
  | CReleaseVertexBuffer b => releaseVertexBuffer b
  | CAcquireIndexBuffer b => acquireIndexBuffer b
  | CReleaseIndexBuffer b => releaseIndexBuffer b
  | CDestroyAllBindings => destroyAllBindings
  end.

(** A freshly constructed manager: no live object, empty registries. *)
Definition init_mgr : Mgr := mkMgr ∅ empty_regs.

(** The state after a sequence of client calls (errors do not stop it). *)
Fixpoint run vbok ibok (ops : list ClientOp) (s : Mgr) : Mgr :=
  match ops with
  | [] => s
  | op :: ops' => run vbok ibok ops' (snd (client_call vbok ibok op s))
  end.

Definition reachable vbok ibok (s : Mgr) : Prop :=
  exists ops, s = run vbok ibok ops init_mgr.

(** Each registry holds exactly the live objects of its kind. *)
Definition wf (s : Mgr) : Prop :=
  mVertexBuffers (regs s) = live_of is_vb (heap s) /\
  mIndexBuffers (regs s) = live_of is_ib (heap s) /\
  mVertexBufferBindings (regs s) = live_of is_binding (heap s).

(** ** Teardown order *)

(** The three registry members of [HardwareBufferManagerBase]. *)
Inductive RegistryMember := RVertexBuffers | RIndexBuffers | RVertexBufferBindings.

(** The kinds of resource a registry can track. *)
Inductive ResourceKind := KVertexBuffer | KIndexBuffer | KConstantBuffer | KBinding.

Definition registry_kind (r : RegistryMember) : ResourceKind :=
  match r with
  | RVertexBuffers => KVertexBuffer
  | RIndexBuffers => KIndexBuffer
  | RVertexBufferBindings => KBinding
  end.

Definition registry_of (r : RegistryMember) (g : Registries) : gset nat :=
  match r with
  | RVertexBuffers => mVertexBuffers g
  | RIndexBuffers => mIndexBuffers g
  | RVertexBufferBindings => mVertexBufferBindings g
  end.

(** What happens while an object is destroyed: a notification into the
    manager's registries, something else, or the end of life of a registry
    member. *)
Inductive OtherEvent := ONotify | OOther.
Inductive Event := ENotify | EOther | ERegistryDestroyed (r : RegistryMember).

Definition lift (e : OtherEvent) : Event :=
  match e with ONotify => ENotify | OOther => EOther end.

(** A data member: a registry, or any other member whose destructor runs
    the given events. *)
Inductive Member := MRegistry (r : RegistryMember) | MOther (dtor : list OtherEvent).

(** A class: direct bases and data members in declaration order, and the
    events of its destructor body. *)
Local Set Warnings "-register-all".
Inductive Cls := mkCls (bases : list Cls) (members : list Member) (body : list OtherEvent).

Definition cls_members (c : Cls) : list Member :=
  match c with mkCls _ ms _ => ms end.

Definition member_dtor (m : Member) : list Event :=
  match m with
  | MRegistry r => [ERegistryDestroyed r]
  | MOther evs => map lift evs
  end.

(** C++ destruction: the destructor body, then the members in reverse
    declaration order, then the direct bases in reverse declaration order. *)
Fixpoint destroy (c : Cls) : list Event :=
  match c with
  | mkCls bases ms body =>
      map lift body ++ concat (map member_dtor (rev ms)) ++
      (fix go (bs : list Cls) : list Event :=
         match bs with [] => [] | b :: bs' => go bs' ++ destroy b end) bases
  end.

(** [HardwareBufferManagerBase] (lines 57-138): no base class; its data
    members are the three registries (lines 68, 69, 72); the body of its
    virtual destructor is not in this header. *)
Definition HardwareBufferManagerBase_cls (dtor_body : list OtherEvent) : Cls :=
  mkCls [] [MRegistry RVertexBuffers; MRegistry RIndexBuffers;
            MRegistry RVertexBufferBindings] dtor_body.

(** [HardwareBufferManager] (lines 141-186): bases
    [HardwareBufferManagerBase] then [Module<HardwareBufferManager>], one data
    member [mImpl], a raw pointer whose destruction does nothing. *)
Definition HardwareBufferManager_cls (base_body : list OtherEvent) (module : Cls)
    (dtor_body : list OtherEvent) : Cls :=
  mkCls [HardwareBufferManagerBase_cls base_body; module] [MOther []] dtor_body.

Definition is_reg_event (e : Event) : bool :=
  match e with ERegistryDestroyed _ => true | _ => false end.

Definition no_registryb (c : Cls) : bool :=
  forallb (fun e => negb (is_reg_event e)) (destroy c).

Definition is_base_cls (c : Cls) : bool :=
  match c with
  | mkCls [] [MRegistry RVertexBuffers; MRegistry RIndexBuffers;
              MRegistry RVertexBufferBindings] _ => true
  | _ => false
  end.

(** A class built on [HardwareBufferManagerBase] as first base at every
    level; its other bases and its own members hold no registry. *)
Fixpoint derives_firstb (c : Cls) : bool :=
  is_base_cls c ||
  match c with
  | mkCls (b :: rest) ms _ =>
      derives_firstb b && forallb no_registryb rest &&
      forallb (fun m => forallb (fun e => negb (is_reg_event e)) (member_dtor m)) ms
  | _ => false
  end.

(** The two kinds of buffer that notify the manager when they die. *)
Inductive BufKind := VBuf | IBuf.

Definition registry_for (k : BufKind) (r : Registries) : gset nat :=
  match k with VBuf => mVertexBuffers r | IBuf => mIndexBuffers r end.

Definition notify_for (k : BufKind) : nat -> M unit :=
  match k with VBuf => _notifyVertexBufferDestroyed | IBuf => _notifyIndexBufferDestroyed end.

Definition release_for (k : BufKind) : nat -> M unit :=
  match k with VBuf => releaseVertexBuffer | IBuf => releaseIndexBuffer end.

(** The reference count of a live buffer of the given kind. *)
Definition refs_of (k : BufKind) (o : Obj) : option nat :=
  match k, o with
  | VBuf, OVertexBuffer _ _ _ n => Some n
  | IBuf, OIndexBuffer _ _ _ n => Some n
  | _, _ => None
  end.

(** The end of life of the three registry members, last declared first. *)
Definition registry_teardown : list Event :=
  [ERegistryDestroyed RVertexBufferBindings; ERegistryDestroyed RIndexBuffers;
   ERegistryDestroyed RVertexBuffers].

(** The objects a registry member tracks. *)
Definition member_pred (r : RegistryMember) : Obj -> bool :=
  match r with
  | RVertexBuffers => is_vb
  | RIndexBuffers => is_ib
  | RVertexBufferBindings => is_binding
  end.

(** ** Calls on the wrapper through the base interface *)






(** ** Proofs *)

(** *** The delegate wrapper *)

Lemma wrapper_call_forward_eq vbok ibok (op : PublicOp) (w : Wrapper) :
  wrapper_call vbok ibok op w =
  (fst (base_call vbok ibok op (mkMgr (wheap w) (mImpl w))),
   mkWrapper (heap (snd (base_call vbok ibok op (mkMgr (wheap w) (mImpl w)))))
             (wregs w)
             (regs (snd (base_call vbok ibok op (mkMgr (wheap w) (mImpl w)))))).
Proof.
  destruct op; cbn [wrapper_call base_call]; unfold
    HardwareBufferManager_createVertexBuffer, HardwareBufferManager_createIndexBuffer,
    HardwareBufferManager_createVertexDeclaration,
    HardwareBufferManager_createVertexBufferBinding,
    HardwareBufferManager_destroyVertexBufferBinding,
    HardwareBufferManager__notifyVertexBufferDestroyed,
    HardwareBufferManager__notifyIndexBufferDestroyed, map_res, forward;
  match goal with |- context [?m (mkMgr (wheap w) (mImpl w))] =>
    destruct (m (mkMgr (wheap w) (mImpl w))) as [[e|a] s'] end; reflexivity.
Qed.

(** C1: every public call on the wrapper gives the same result, and leaves
    the backend in the same state, as the same call made directly on the
    backend instance [mImpl]; nothing else of the wrapper is read or
    written, and no check is added. *)
Theorem wrapper_call_forwards vbok ibok (op : PublicOp) (w : Wrapper) :
  wrapper_call vbok ibok op w =
  (fst (base_call vbok ibok op (mkMgr (wheap w) (mImpl w))),
   mkWrapper (heap (snd (base_call vbok ibok op (mkMgr (wheap w) (mImpl w)))))
             (wregs w)
             (regs (snd (base_call vbok ibok op (mkMgr (wheap w) (mImpl w)))))).
Proof. apply wrapper_call_forward_eq. Qed.

Lemma wrapper_call_wregs vbok ibok (op : PublicOp) (w : Wrapper) :
  wregs (snd (wrapper_call vbok ibok op w)) = wregs w.
Proof. by rewrite wrapper_call_forward_eq. Qed.

Lemma wrapper_run_wregs vbok ibok (ops : list PublicOp) (w : Wrapper) :
  wregs (wrapper_run vbok ibok ops w) = wregs w.
Proof.
  revert w; induction ops as [|op ops IH]; intros w; [done|].
  cbn [wrapper_run]. by rewrite IH, wrapper_call_wregs.
Qed.

(** C10: whatever calls are made on a wrapper, its own inherited registries
    stay empty; only the backend's registries change. *)
Theorem wrapper_own_registries_empty vbok ibok (h : gmap nat Obj)
    (imp : Registries) (ops : list PublicOp) :
  wregs (wrapper_run vbok ibok ops (HardwareBufferManager_new h imp)) = empty_regs.
Proof. by rewrite wrapper_run_wregs. Qed.

(** *** Live objects *)

Lemma elem_of_live_of (p : Obj -> bool) (h : gmap nat Obj) (k : nat) :
  k ∈ live_of p h <-> exists o, h !! k = Some o /\ p o = true.
Proof.
  unfold live_of. rewrite elem_of_dom. split.
  - intros [o Ho]. apply map_lookup_filter_Some in Ho. naive_solver.
  - intros (o & Ho & Hp). exists o. apply map_lookup_filter_Some. naive_solver.
Qed.

Lemma live_of_insert (p : Obj -> bool) (h : gmap nat Obj) (i : nat) (o : Obj) :
  live_of p (<[i := o]> h) =
  if p o then {[i]} ∪ live_of p h else live_of p h ∖ {[i]}.
Proof.
  apply set_eq; intros k.
  destruct (p o) eqn:Hp; rewrite ?elem_of_union, ?elem_of_difference,
    ?elem_of_singleton, !elem_of_live_of;
  destruct (decide (k = i)) as [->|Hne]; rewrite ?lookup_insert_eq,
    ?lookup_insert_ne by done.
  - split; [by left|]. intros _. by exists o.
  - split; [by right|]. intros [->|?]; done.
  - split; [|intros [_ []]; done]. intros (o' & [= <-] & Hp'). congruence.
  - split; [intros ?; by split|]. by intros [? _].
Qed.

Lemma live_of_delete (p : Obj -> bool) (h : gmap nat Obj) (i : nat) :
  live_of p (delete i h) = live_of p h ∖ {[i]}.
Proof.
  apply set_eq; intros k.
  rewrite elem_of_difference, elem_of_singleton, !elem_of_live_of.
  destruct (decide (k = i)) as [->|Hne]; rewrite ?lookup_delete_eq,
    ?lookup_delete_ne by done; naive_solver.
Qed.

Lemma not_live_of (p : Obj -> bool) (h : gmap nat Obj) (i : nat) :
  (forall o, h !! i = Some o -> p o = false) -> i ∉ live_of p h.
Proof. rewrite elem_of_live_of. intros Hn (o & Ho & Hp). rewrite (Hn o Ho) in Hp. done. Qed.

Lemma fresh_not_live (p : Obj -> bool) (h : gmap nat Obj) :
  fresh (dom h) ∉ live_of p h.
Proof.
  apply not_live_of. intros o Ho. exfalso. apply (is_fresh (dom h)).
  apply elem_of_dom. by eexists.
Qed.

Lemma fresh_lookup (h : gmap nat Obj) : h !! fresh (dom h) = None.
Proof. apply not_elem_of_dom, is_fresh. Qed.

Lemma destroy_each_spec (bs : list nat) (s : Mgr) :
  destroy_each bs s = (inr tt, mkMgr (foldl (fun h b => delete b h) (heap s) bs) (regs s)).
Proof.
  revert s; induction bs as [|b bs IH]; intros [h r]; [done|].
  cbn [destroy_each foldl]. unfold bind, destroyVertexBufferBindingImpl, free.
  by rewrite IH.
Qed.

Lemma lookup_foldl_delete (bs : list nat) (h : gmap nat Obj) (k : nat) :
  foldl (fun h b => delete b h) h bs !! k = if decide (k ∈ bs) then None else h !! k.
Proof.
  revert h; induction bs as [|b bs IH]; intros h; cbn [foldl].
  - rewrite decide_False; [done|]. apply not_elem_of_nil.
  - rewrite IH. destruct (decide (k = b)) as [->|Hne].
    + rewrite lookup_delete_eq. by repeat case_decide; set_solver.
    + rewrite lookup_delete_ne by done. repeat case_decide; set_solver.
Qed.
Lemma live_of_lookup (p : Obj -> bool) (h : gmap nat Obj) (b : nat) (o : Obj) :
  h !! b = Some o -> (b ∈ live_of p h <-> p o = true).
Proof. intros Hb. rewrite elem_of_live_of. split; [intros (o' & Ho' & Hp); congruence|eauto]. Qed.

Lemma live_of_foldl_delete (p : Obj -> bool) (h : gmap nat Obj) (bs : list nat) :
  live_of p (foldl (fun h b => delete b h) h bs) = live_of p h ∖ list_to_set bs.
Proof.
  apply set_eq; intros k.
  rewrite elem_of_difference, elem_of_list_to_set, !elem_of_live_of,
    lookup_foldl_delete.
  case_decide; naive_solver.
Qed.

Lemma live_of_excl (p q : Obj -> bool) (h : gmap nat Obj) (k : nat) :
  (forall o, p o = true -> q o = false) ->
  k ∈ live_of p h -> k ∉ live_of q h.
Proof.
  rewrite !elem_of_live_of. intros Hpq (o & Ho & Hp) (o' & Ho' & Hq).
  rewrite Ho in Ho'; injection Ho' as <-. rewrite (Hpq o Hp) in Hq. done.
Qed.

Ltac live_facts h :=
  repeat match goal with
  | H : h !! ?b = Some ?o |- _ =>
      pose proof (live_of_lookup is_vb h b o H);
      pose proof (live_of_lookup is_ib h b o H);
      pose proof (live_of_lookup is_binding h b o H);
      cbn [is_vb is_ib is_binding] in *; clear H
  end.

(** *** The registry invariant *)

Lemma wf_step vbok ibok (op : ClientOp) (s : Mgr) :
  wf s -> wf (snd (client_call vbok ibok op s)).
Proof.
  destruct s as [h [vbs ibs bds]]; unfold wf; cbn [regs heap mVertexBuffers
    mIndexBuffers mVertexBufferBindings]; intros (-> & -> & ->).
  pose proof (fresh_not_live is_vb h); pose proof (fresh_not_live is_ib h);
  pose proof (fresh_not_live is_binding h).
  destruct op; cbn [client_call]; unfold map_res, createVertexBuffer, createIndexBuffer,
    createVertexDeclaration, createVertexDeclarationImpl, createVertexBufferBinding,
    createVertexBufferBindingImpl, destroyVertexBufferBinding,
    destroyVertexBufferBindingImpl, destroyAllBindings, acquireVertexBuffer,
    releaseVertexBuffer, acquireIndexBuffer, releaseIndexBuffer,
    _notifyVertexBufferDestroyed, _notifyIndexBufferDestroyed,
    bind, get, ret, fail, alloc, free, set_obj, set_vbs, set_ibs, set_bindings;
    cbn [regs heap mVertexBuffers mIndexBuffers mVertexBufferBindings fst snd];
    rewrite ?destroy_each_spec;
    repeat (case_match; cbn [regs heap mVertexBuffers mIndexBuffers mVertexBufferBindings fst snd] in * );
    simplify_eq/=;
    rewrite ?live_of_insert, ?live_of_delete, ?live_of_foldl_delete;
    cbn [is_vb is_ib is_binding]; live_facts h.
  all: try (split_and!; apply set_eq; set_solver).
  all: split_and!; apply set_eq; intros k;
    pose proof (live_of_excl is_binding is_vb h k ltac:(by intros []));
    pose proof (live_of_excl is_binding is_ib h k ltac:(by intros []));
    set_solver.
Qed.

Lemma run_app vbok ibok (ops ops' : list ClientOp) (s : Mgr) :
  run vbok ibok (ops ++ ops') s = run vbok ibok ops' (run vbok ibok ops s).
Proof. revert s; induction ops as [|op ops IH]; intros s; [done|]. apply IH. Qed.

Lemma wf_run vbok ibok (ops : list ClientOp) (s : Mgr) :
  wf s -> wf (run vbok ibok ops s).
Proof.
  revert s; induction ops as [|op ops IH]; intros s Hs; [done|].
  apply IH, wf_step, Hs.
Qed.

Lemma wf_init : wf init_mgr.
Proof. unfold wf, init_mgr, live_of. cbn. by rewrite map_filter_empty, dom_empty_L. Qed.

Lemma wf_reachable vbok ibok (ops : list ClientOp) : wf (run vbok ibok ops init_mgr).
Proof. apply wf_run, wf_init. Qed.

(** C8: in every state reachable by client calls, each registry holds
    exactly the live objects of its kind (a set: each at most once), so an
    entry leaves its registry exactly when its object dies; and a second
    removal of an entry already removed (double notification, double
    destroy) is rejected as an invariant violation without any change. *)
Theorem registries_track_live vbok ibok (ops : list ClientOp) :
  let s := run vbok ibok ops init_mgr in
  wf s /\
  (forall b, b ∉ mVertexBuffers (regs s) ->
     _notifyVertexBufferDestroyed b s = (inl InvariantViolation, s)) /\
  (forall b, b ∉ mIndexBuffers (regs s) ->
     _notifyIndexBufferDestroyed b s = (inl InvariantViolation, s)) /\
  (forall b, b ∉ mVertexBufferBindings (regs s) ->
     destroyVertexBufferBinding b s = (inl InvariantViolation, s)).
Proof.
  cbv zeta. split; [apply wf_reachable|].
  split_and!; intros b Hb;
    unfold _notifyVertexBufferDestroyed, _notifyIndexBufferDestroyed,
      destroyVertexBufferBinding, bind, get, fail;
    by rewrite decide_False.
Qed.

Ltac unfold_ops :=
  unfold createVertexBuffer, createIndexBuffer, createVertexDeclaration,
    createVertexDeclarationImpl, createVertexBufferBinding,
    createVertexBufferBindingImpl, destroyVertexBufferBinding,
    destroyVertexBufferBindingImpl, destroyAllBindings, acquireVertexBuffer,
    releaseVertexBuffer, acquireIndexBuffer, releaseIndexBuffer,
    _notifyVertexBufferDestroyed, _notifyIndexBufferDestroyed,
    bind, get, ret, fail, alloc, free, set_obj, set_vbs, set_ibs, set_bindings;
  cbn [regs heap mVertexBuffers mIndexBuffers mVertexBufferBindings fst snd].

(** *** Vertex buffer creation *)

(** C2: a valid request the backend accepts yields a newly allocated buffer
    of [vertexSize * numVerts] bytes, registered in [mVertexBuffers]; it stays
    registered for as long as it is alive, whatever client calls follow. *)
Theorem createVertexBuffer_registered vbok ibok (ops : list ClientOp)
    (vertexSize numVerts : nat) (usage : Usage) (streamOut : bool)
    (Hvs : 0 < vertexSize) (Hnv : 0 < numVerts)
    (Hok : vbok vertexSize numVerts usage streamOut = true) :
  let s := run vbok ibok ops init_mgr in
  exists b s',
    createVertexBuffer vbok vertexSize numVerts usage streamOut s = (inr b, s') /\
    heap s !! b = None /\
    heap s' !! b = Some (OVertexBuffer (vertexSize * numVerts) usage streamOut 1) /\
    b ∈ mVertexBuffers (regs s') /\
    forall ops' : list ClientOp,
      (exists sz u so n,
         heap (run vbok ibok ops' s') !! b = Some (OVertexBuffer sz u so n)) ->
      b ∈ mVertexBuffers (regs (run vbok ibok ops' s')).
Proof.
  cbv zeta. set (s := run vbok ibok ops init_mgr).
  assert (Hwf : wf s) by apply wf_reachable.
  assert (Hc : createVertexBuffer vbok vertexSize numVerts usage streamOut s =
    (inr (fresh (dom (heap s))),
     mkMgr (<[fresh (dom (heap s)) := OVertexBuffer (vertexSize * numVerts) usage streamOut 1]> (heap s))
           (mkRegs ({[fresh (dom (heap s))]} ∪ mVertexBuffers (regs s))
                   (mIndexBuffers (regs s)) (mVertexBufferBindings (regs s))))).
  { unfold createVertexBuffer. rewrite Hok.
    rewrite (proj2 (Nat.ltb_lt 0 vertexSize) Hvs), (proj2 (Nat.ltb_lt 0 numVerts) Hnv).
    reflexivity. }
  eexists _, _. split; [exact Hc|].
  split; [apply fresh_lookup|]. split; [cbn; apply lookup_insert_eq|].
  split; [cbn; set_solver|].
  intros ops' (sz & u & so & n & Hl).
  assert (Hwf' : wf (run vbok ibok ops'
    (snd (client_call vbok ibok (CCreateVertexBuffer vertexSize numVerts usage streamOut) s)))).
  { apply wf_run, wf_step, Hwf. }
  cbn [client_call] in Hwf'. unfold map_res in Hwf'. rewrite Hc in Hwf'. cbn [snd] in Hwf'.
  destruct Hwf' as (-> & _ & _). apply elem_of_live_of. eauto.
Qed.

(** *** Destruction notifications *)

Lemma release_last_wf (s : Mgr) (k : BufKind) (b : nat) (o : Obj) :
  wf s -> heap s !! b = Some o -> refs_of k o = Some 1 ->
  b ∈ registry_for k (regs s) /\
  exists r',
    notify_for k b s = (inr tt, mkMgr (heap s) r') /\
    release_for k b s = (inr tt, mkMgr (delete b (heap s)) r') /\
    registry_for k r' = registry_for k (regs s) ∖ {[b]} /\
    size (registry_for k r') = size (registry_for k (regs s)) - 1 /\
    (forall k', k' <> k -> registry_for k' r' = registry_for k' (regs s)) /\
    mVertexBufferBindings r' = mVertexBufferBindings (regs s).
Proof.
  destruct s as [h [vbs ibs bds]]; unfold wf; cbn [regs heap mVertexBuffers
    mIndexBuffers mVertexBufferBindings]; intros (-> & -> & ->) Hb Hk.
  assert (Hin : b ∈ registry_for k (mkRegs (live_of is_vb h) (live_of is_ib h)
                                       (live_of is_binding h))).
  { destruct k, o; cbn in Hk |- *; try discriminate; apply elem_of_live_of; eauto. }
  split; [exact Hin|].
  destruct k, o; cbn in Hk; try discriminate; injection Hk as ->; cbn in Hin.
  - eexists (mkRegs (live_of is_vb h ∖ {[b]}) _ _).
    unfold notify_for, release_for; unfold_ops; rewrite Hb; cbn.
    rewrite !decide_True by done. split_and!; try done.
    + rewrite size_difference by set_solver. by rewrite size_singleton.
    + intros [] ?; done.
  - eexists (mkRegs _ (live_of is_ib h ∖ {[b]}) _).
    unfold notify_for, release_for; unfold_ops; rewrite Hb; cbn.
    rewrite !decide_True by done. split_and!; try done.
    + rewrite size_difference by set_solver. by rewrite size_singleton.
    + intros [] ?; done.
Qed.

(** C3: when the last reference to a live buffer is released, its
    notification removes it from its registry (one entry fewer), leaves the
    heap and the other registries alone (the notification frees nothing),
    and the buffer is then freed by its own destruction. *)
Theorem release_last_reference vbok ibok (ops : list ClientOp) (k : BufKind)
    (b : nat) (o : Obj)
    (Hb : heap (run vbok ibok ops init_mgr) !! b = Some o)
    (Hlast : refs_of k o = Some 1) :
  let s := run vbok ibok ops init_mgr in
  b ∈ registry_for k (regs s) /\
  exists r',
    notify_for k b s = (inr tt, mkMgr (heap s) r') /\
    release_for k b s = (inr tt, mkMgr (delete b (heap s)) r') /\
    registry_for k r' = registry_for k (regs s) ∖ {[b]} /\
    size (registry_for k r') = size (registry_for k (regs s)) - 1 /\
    (forall k', k' <> k -> registry_for k' r' = registry_for k' (regs s)) /\
    mVertexBufferBindings r' = mVertexBufferBindings (regs s).
Proof. exact (release_last_wf _ k b o (wf_reachable vbok ibok ops) Hb Hlast). Qed.

(** *** Vertex buffer bindings *)

Lemma binding_roundtrip_wf (s : Mgr) :
  wf s ->
  exists b s1 s2,
    createVertexBufferBinding s = (inr b, s1) /\
    destroyVertexBufferBinding b s1 = (inr tt, s2) /\
    mVertexBufferBindings (regs s2) = mVertexBufferBindings (regs s) /\
    s2 = s.
Proof.
  destruct s as [h [vbs ibs bds]]; unfold wf; cbn [regs heap mVertexBuffers
    mIndexBuffers mVertexBufferBindings]; intros (-> & -> & ->).
  pose proof (fresh_not_live is_binding h) as Hf.
  do 3 eexists. split; [unfold_ops; reflexivity|].
  split; [unfold_ops; rewrite decide_True by set_solver; reflexivity|].
  split.
  - cbn. apply set_eq. set_solver.
  - cbn. rewrite delete_insert_id by apply fresh_lookup. f_equal. f_equal.
    apply set_eq. set_solver.
Qed.

(** C4: in every reachable state, creating a binding and destroying it at
    once gives back the binding registry (indeed the whole state) as it was
    before the creation. *)
Theorem binding_create_destroy_roundtrip vbok ibok (ops : list ClientOp) :
  let s := run vbok ibok ops init_mgr in
  exists b s1 s2,
    createVertexBufferBinding s = (inr b, s1) /\
    destroyVertexBufferBinding b s1 = (inr tt, s2) /\
    mVertexBufferBindings (regs s2) = mVertexBufferBindings (regs s) /\
    s2 = s.
Proof. apply binding_roundtrip_wf, wf_reachable. Qed.

(** C5: [destroyAllBindings] destroys every registered binding, whatever
    their number, and empties the registry; destroying any of them
    afterwards is an invariant violation. *)
Theorem destroyAllBindings_empties (s : Mgr) :
  exists s',
    destroyAllBindings s = (inr tt, s') /\
    mVertexBufferBindings (regs s') = ∅ /\
    forall b, b ∈ mVertexBufferBindings (regs s) ->
      heap s' !! b = None /\
      destroyVertexBufferBinding b s' = (inl InvariantViolation, s').
Proof.
  eexists. unfold destroyAllBindings, bind, get. cbn beta iota.
  rewrite destroy_each_spec.
  unfold set_bindings. split; [reflexivity|]. split; [reflexivity|].
  intros b Hb. cbn [heap regs mVertexBufferBindings]. split.
  - rewrite lookup_foldl_delete, decide_True; [done|]. by apply elem_of_elements.
  - unfold destroyVertexBufferBinding, bind, get, fail. cbn.
    rewrite decide_False; [done|]. apply not_elem_of_empty.
Qed.

(** C6: destroying a binding the manager does not hold fails with an
    invariant violation and leaves the state, registry included, as it
    was. *)
Theorem destroy_unregistered_binding_fails (s : Mgr) (b : nat)
    (Hb : b ∉ mVertexBufferBindings (regs s)) :
  destroyVertexBufferBinding b s = (inl InvariantViolation, s).
Proof.
  unfold destroyVertexBufferBinding, bind, get, fail. by rewrite decide_False.
Qed.

(** *** The registries *)

(** C7 (as the code has it): the registry members track vertex buffers,
    index buffers and vertex-buffer bindings, and nothing else; in every
    reachable state each holds exactly the live objects of its kind. *)
Theorem registries_kinds vbok ibok (ops : list ClientOp) :
  (forall k, (exists r, registry_kind r = k) <->
             k ∈ [KVertexBuffer; KIndexBuffer; KBinding]) /\
  (forall r, registry_of r (regs (run vbok ibok ops init_mgr)) =
             live_of (member_pred r) (heap (run vbok ibok ops init_mgr))).
Proof.
  split.
  - intros k. rewrite !elem_of_cons, elem_of_nil. split.
    + intros [[] <-]; cbn; tauto.
    + intros [->|[->|[->|[]]]].
      * by exists RVertexBuffers.
      * by exists RIndexBuffers.
      * by exists RVertexBufferBindings.
  - destruct (wf_reachable vbok ibok ops) as (H1 & H2 & H3). by intros [].
Qed.

(** C7 (as stated): no registry member tracks constant buffers;
    [ConstantBufferList] is declared as a type only. *)
Lemma no_constant_buffer_registry :
  ~ (forall k, k ∈ [KVertexBuffer; KIndexBuffer; KConstantBuffer] ->
               exists r, registry_kind r = k).
Proof.
  intros H. destruct (H KConstantBuffer) as [[] Hr];
    [rewrite !elem_of_cons; tauto|discriminate..].
Qed.

(** *** Teardown order *)

Lemma destroy_bases (bs : list Cls) :
  destroy (mkCls bs [] []) = concat (map destroy (rev bs)).
Proof.
  induction bs as [|b bs IH]; [done|].
  cbn [destroy] in *. cbn [map concat app rev] in *.
  rewrite IH, map_app, concat_app. cbn. by rewrite ?app_nil_r.
Qed.

Lemma destroy_unfold (bs : list Cls) (ms : list Member) (body : list OtherEvent) :
  destroy (mkCls bs ms body) =
  map lift body ++ concat (map member_dtor (rev ms)) ++ concat (map destroy (rev bs)).
Proof. rewrite <- destroy_bases. reflexivity. Qed.

Lemma forallb_concat_map {A B} (p : B -> bool) (f : A -> list B) (l : list A) :
  forallb p (concat (map f l)) = forallb (fun x => forallb p (f x)) l.
Proof.
  induction l as [|x l IH]; [done|]. cbn. by rewrite forallb_app, IH.
Qed.

Lemma forallb_rev' {A} (p : A -> bool) (l : list A) :
  forallb p (rev l) = forallb p l.
Proof.
  induction l as [|x l IH]; [done|]. cbn. rewrite forallb_app, IH. cbn.
  by rewrite andb_true_r, andb_comm.
Qed.

Lemma forallb_lift (body : list OtherEvent) :
  forallb (fun e => negb (is_reg_event e)) (map lift body) = true.
Proof. induction body as [|[] body IH]; done. Qed.

Lemma destroy_derives_first :
  forall c, derives_firstb c = true ->
  exists pre, destroy c = pre ++ registry_teardown /\
              forallb (fun e => negb (is_reg_event e)) pre = true.
Proof.
  fix IH 1. intros [bases ms body] H.
  cbn [derives_firstb] in H. apply orb_true_iff in H. destruct H as [Hb|Hd].
  - unfold is_base_cls in Hb. repeat (case_match; try discriminate). subst.
    exists (map lift body). rewrite destroy_unfold. cbn.
    split; [by rewrite ?app_nil_r|]. apply forallb_lift.
  - destruct bases as [|b rest]; [discriminate|].
    apply andb_true_iff in Hd as [[Hb Hrest]%andb_true_iff Hms].
    destruct (IH b Hb) as (pre & Hpre & Hok).
    exists (map lift body ++ concat (map member_dtor (rev ms)) ++
            concat (map destroy (rev rest)) ++ pre).
    rewrite destroy_unfold. cbn [rev]. rewrite map_app, concat_app. cbn [map concat].
    rewrite app_nil_r, Hpre, !app_assoc. split; [done|].
    rewrite !forallb_app, forallb_lift, Hok, !forallb_concat_map, !forallb_rev'.
    unfold no_registryb in Hrest. by rewrite Hrest, Hms.
Qed.

(** C9: the three registries are the first members declared in
    [HardwareBufferManagerBase]; destroying any manager built on it (as first
    base, other bases and own members holding no registry) ends with the
    three registries, after everything else, so every notification sent
    while the manager's other state is destroyed comes before any registry
    is gone. *)
Theorem registries_destroyed_last (c : Cls) (Hc : derives_firstb c = true) :
  (forall body, take 3 (cls_members (HardwareBufferManagerBase_cls body)) =
     [MRegistry RVertexBuffers; MRegistry RIndexBuffers; MRegistry RVertexBufferBindings]) /\
  (exists pre, destroy c = pre ++ registry_teardown /\
               forall r, ERegistryDestroyed r ∉ pre) /\
  (forall i j r, destroy c !! i = Some ENotify ->
                 destroy c !! j = Some (ERegistryDestroyed r) -> i < j).
Proof.
  destruct (destroy_derives_first c Hc) as (pre & Hpre & Hok).
  assert (Hnot : forall r, ERegistryDestroyed r ∉ pre).
  { intros r Hr. apply list_elem_of_In in Hr.
    apply forallb_forall with (x := ERegistryDestroyed r) in Hok; done. }
  split; [done|]. split; [by exists pre|].
  intros i j r Hi Hj. rewrite Hpre in Hi, Hj.
  destruct (decide (i < length pre)) as [Hlt|Hge].
  - destruct (decide (j < length pre)) as [Hjl|Hjg]; [|lia].
    rewrite lookup_app_l in Hj by done.
    exfalso. apply (Hnot r). by eapply list_elem_of_lookup_2.
  - rewrite lookup_app_r in Hi by lia. unfold registry_teardown in Hi.
    destruct (i - length pre) as [|[|[|n]]]; cbn in Hi; try discriminate.
Qed.

(** *** The wrapper over a sequence of calls *)


(** *** Notifications through the base interface *)


(** ** Witnesses on concrete inputs *)

(** A backend that accepts every request. *)
Definition accept_all_vb : nat -> nat -> Usage -> bool -> bool := fun _ _ _ _ => true.
Definition accept_all_ib : IndexType -> nat -> Usage -> bool := fun _ _ _ => true.

(** 32 bytes per vertex, 100 vertices, static write-only, on a fresh manager. *)
Lemma createVertexBuffer_registered_witness :
  0 < 32 /\ 0 < 100 /\ accept_all_vb 32 100 HBU_STATIC_WRITE_ONLY false = true /\
  let s := run accept_all_vb accept_all_ib [] init_mgr in
  exists b s',
    createVertexBuffer accept_all_vb 32 100 HBU_STATIC_WRITE_ONLY false s = (inr b, s') /\
    heap s !! b = None /\
    heap s' !! b = Some (OVertexBuffer (32 * 100) HBU_STATIC_WRITE_ONLY false 1) /\
    b ∈ mVertexBuffers (regs s') /\
    forall ops' : list ClientOp,
      (exists sz u so n,
         heap (run accept_all_vb accept_all_ib ops' s') !! b = Some (OVertexBuffer sz u so n)) ->
      b ∈ mVertexBuffers (regs (run accept_all_vb accept_all_ib ops' s')).
Proof.
  split; [lia|]. split; [lia|]. split; [reflexivity|].
  apply (createVertexBuffer_registered accept_all_vb accept_all_ib [] 32 100
           HBU_STATIC_WRITE_ONLY false); [lia | lia | reflexivity].
Defined.

(** The same buffer, created then released by its only holder. *)
Lemma release_last_reference_witness :
  let ops := [CCreateVertexBuffer 32 100 HBU_STATIC_WRITE_ONLY false] in
  let o := OVertexBuffer 3200 HBU_STATIC_WRITE_ONLY false 1 in
  heap (run accept_all_vb accept_all_ib ops init_mgr) !! 0 = Some o /\
  refs_of VBuf o = Some 1 /\
  let s := run accept_all_vb accept_all_ib ops init_mgr in
  0 ∈ registry_for VBuf (regs s) /\
  exists r',
    notify_for VBuf 0 s = (inr tt, mkMgr (heap s) r') /\
    release_for VBuf 0 s = (inr tt, mkMgr (delete 0 (heap s)) r') /\
    registry_for VBuf r' = registry_for VBuf (regs s) ∖ {[0]} /\
    size (registry_for VBuf r') = size (registry_for VBuf (regs s)) - 1 /\
    (forall k', k' <> VBuf -> registry_for k' r' = registry_for k' (regs s)) /\
    mVertexBufferBindings r' = mVertexBufferBindings (regs s).
Proof.
  cbv zeta. split; [vm_compute; reflexivity|]. split; [reflexivity|].
  apply (release_last_reference accept_all_vb accept_all_ib
           [CCreateVertexBuffer 32 100 HBU_STATIC_WRITE_ONLY false] VBuf 0
           (OVertexBuffer 3200 HBU_STATIC_WRITE_ONLY false 1));
    [vm_compute; reflexivity | reflexivity].
Defined.

(** Binding 5 was never created: only binding 0 exists. *)
Lemma destroy_unregistered_binding_fails_witness :
  let s := run accept_all_vb accept_all_ib [CCreateVertexBufferBinding] init_mgr in
  (5 ∉ mVertexBufferBindings (regs s)) /\
  destroyVertexBufferBinding 5 s = (inl InvariantViolation, s).
Proof.
  cbv zeta. split; [vm_compute; discriminate|].
  apply destroy_unregistered_binding_fails. vm_compute. discriminate.
Defined.

(** Scenario: one vertex buffer (32 bytes per vertex, 100 vertices): one
    registry entry; releasing the only reference leaves none. *)
Example scenario_vertex_buffer_release :
  let s1 := run accept_all_vb accept_all_ib
              [CCreateVertexBuffer 32 100 HBU_STATIC_WRITE_ONLY false] init_mgr in
  let s2 := run accept_all_vb accept_all_ib [CReleaseVertexBuffer 0] s1 in
  size (mVertexBuffers (regs s1)) = 1 /\ size (mVertexBuffers (regs s2)) = 0.
Proof. vm_compute. split; reflexivity. Qed.

(** Scenario: three bindings, then [destroyAllBindings]: the registry is
    empty and destroying any of the three fails. *)
Example scenario_destroy_all_bindings :
  let s := run accept_all_vb accept_all_ib
             [CCreateVertexBufferBinding; CCreateVertexBufferBinding;
              CCreateVertexBufferBinding; CDestroyAllBindings] init_mgr in
  size (mVertexBufferBindings (regs s)) = 0 /\
  Forall (fun b => fst (destroyVertexBufferBinding b s) = inl InvariantViolation) [0; 1; 2].
Proof. vm_compute. repeat constructor. Qed.

(** A backend-specific wrapper whose destructors and [Module] base notify. *)
Lemma registries_destroyed_last_witness :
  let c := HardwareBufferManager_cls [ONotify] (mkCls [] [MOther [ONotify]] [OOther])
             [ONotify; OOther] in
  derives_firstb c = true /\
  (forall body, take 3 (cls_members (HardwareBufferManagerBase_cls body)) =
     [MRegistry RVertexBuffers; MRegistry RIndexBuffers; MRegistry RVertexBufferBindings]) /\
  (exists pre, destroy c = pre ++ registry_teardown /\
               forall r, ERegistryDestroyed r ∉ pre) /\
  (forall i j r, destroy c !! i = Some ENotify ->
                 destroy c !! j = Some (ERegistryDestroyed r) -> i < j).
Proof.
  cbv zeta. split; [vm_compute; reflexivity|].
  apply registries_destroyed_last. vm_compute. reflexivity.
Defined.

